(** * Navigation state of the volumetric viewer

    A shallow embedding of [src/neuroglancer/navigation_state.ts]: the voxel
    size, the spatial position with its pending voxel coordinate, the
    orientation quaternion, the pose and the zoom factor, wired together by
    change signals.

    Numbers.  A JavaScript number is modelled as a real number; rounding,
    the infinities and the sign of zero are outside the model.  The one
    place where the source relies on a non-numeric value is the zoom factor,
    whose "unset" state is [Number.NaN]; it has the type [number], a real or
    [NaN].  Typed arrays of a fixed length ([Vec3], [Quat], [Mat3]) are
    records of reals with index accessors.

    Signals.  Every [changed] signal of the object graph rooted at a
    [NavigationState] is dispatched synchronously; a dispatch is recorded in
    the world's log and runs the listeners that the constructors bound, in
    the order they were bound. *)

From Stdlib Require Import Reals Lra Psatz List Bool String Arith.
Import ListNotations.
Local Open Scope R_scope.

(** ** Numbers and JSON-like values *)

Inductive number : Type :=
| NaN
| Num (r : R).

Definition Number_isNaN (n : number) : bool :=
  match n with NaN => true | Num _ => false end.

(** The values a caller can hand to a [restoreState] method. *)
#[warnings="-register-all"] Inductive JSValue : Type :=
| JSundefined
| JSnull
| JSboolean (b : bool)
| JSnumber (n : number)
| JSstring (s : string)
| JSarray (elems : list JSValue)
| JSobject (props : list (string * JSValue)).

Inductive JSError : Type :=
| TypeError.

(** How a method call ends: it returns, or an exception escapes it. *)
Inductive Completion (A : Type) : Type :=
| Normal (a : A)
| Throw (e : JSError).
Arguments Normal {A} a.
Arguments Throw {A} e.

Fixpoint own_property (key : string) (props : list (string * JSValue))
  : option JSValue :=
  match props with
  | [] => None
  | (k, v) :: rest => if String.eqb k key then Some v else own_property key rest
  end.

(** [obj.hasOwnProperty(key)] for a value that is neither [undefined] nor
    [null]; the keys used by this file are never indices or [length]. *)
Definition hasOwnProperty (obj : JSValue) (key : string) : bool :=
  match obj with
  | JSobject props =>
      match own_property key props with Some _ => true | None => false end
  | _ => false
  end.

(** [obj[key]]: reading a property of [undefined] or [null] throws. *)
Definition get_property (obj : JSValue) (key : string) : Completion JSValue :=
  match obj with
  | JSundefined | JSnull => Throw TypeError
  | JSobject props =>
      match own_property key props with
      | Some v => Normal v
      | None => Normal JSundefined
      end
  | _ => Normal JSundefined
  end.

(** ** Comparisons and [Math] functions on reals *)

Definition Rgtb (a b : R) : bool := if Rlt_dec b a then true else false.
Definition Reqb (a b : R) : bool := if Req_dec_T a b then true else false.

Definition Math_abs (x : R) : R := Rabs x.

Definition Math_sign (x : R) : R :=
  if Rgtb x 0 then 1 else if Rgtb 0 x then -1 else 0.

(** [Math.min.apply(null, a)] for a three-element array. *)
Definition Math_min3 (a b c : R) : R := Rmin (Rmin a b) c.

(** ** Vectors, quaternions and matrices ([neuroglancer/util/geom]) *)

Record Vec3 : Type := vec3_fromValues { vec3_0 : R; vec3_1 : R; vec3_2 : R }.
Record Quat : Type :=
  quat_fromValues { quat_0 : R; quat_1 : R; quat_2 : R; quat_3 : R }.
Record Mat3 : Type := mat3_fromValues {
  mat3_0 : R; mat3_1 : R; mat3_2 : R;
  mat3_3 : R; mat3_4 : R; mat3_5 : R;
  mat3_6 : R; mat3_7 : R; mat3_8 : R }.

(** Modelled from the spec: the vector library is absent from the sources;
    [vec3.create] is the zero vector and [quat.create] the identity
    quaternion [[0,0,0,1]]. *)
Definition vec3_create : Vec3 := vec3_fromValues 0 0 0.
Definition quat_create : Quat := quat_fromValues 0 0 0 1.
Definition quat_identity : Quat := quat_fromValues 0 0 0 1.

(** Modelled from the spec: element-wise sum, product and quotient. *)
Definition vec3_add (a b : Vec3) : Vec3 :=
  vec3_fromValues (vec3_0 a + vec3_0 b) (vec3_1 a + vec3_1 b) (vec3_2 a + vec3_2 b).
Definition vec3_multiply (a b : Vec3) : Vec3 :=
  vec3_fromValues (vec3_0 a * vec3_0 b) (vec3_1 a * vec3_1 b) (vec3_2 a * vec3_2 b).
Definition vec3_divide (a b : Vec3) : Vec3 :=
  vec3_fromValues (vec3_0 a / vec3_0 b) (vec3_1 a / vec3_1 b) (vec3_2 a / vec3_2 b).

(** Modelled from the spec: "rotates delta by current orientation", with the
    vector library's formula [q * v * conj q]. *)
Definition vec3_transformQuat (a : Vec3) (q : Quat) : Vec3 :=
  let x := vec3_0 a in let y := vec3_1 a in let z := vec3_2 a in
  let qx := quat_0 q in let qy := quat_1 q in
  let qz := quat_2 q in let qw := quat_3 q in
  let ix := qw * x + qy * z - qz * y in
  let iy := qw * y + qz * x - qx * z in
  let iz := qw * z + qx * y - qy * x in
  let iw := - qx * x - qy * y - qz * z in
  vec3_fromValues
    (ix * qw + iw * - qx + iy * - qz - iz * - qy)
    (iy * qw + iw * - qy + iz * - qx - ix * - qz)
    (iz * qw + iw * - qz + ix * - qy - iy * - qx).

(** Indexed reads and writes of a nine-element typed array; a write outside
    the array is dropped and a read there yields no number (here [0]). *)
Definition mat3_get (m : Mat3) (k : nat) : R :=
  match k with
  | 0%nat => mat3_0 m | 1%nat => mat3_1 m | 2%nat => mat3_2 m
  | 3%nat => mat3_3 m | 4%nat => mat3_4 m | 5%nat => mat3_5 m
  | 6%nat => mat3_6 m | 7%nat => mat3_7 m | 8%nat => mat3_8 m
  | _ => 0
  end.

Definition mat3_set (m : Mat3) (k : nat) (v : R) : Mat3 :=
  let '(mat3_fromValues a0 a1 a2 a3 a4 a5 a6 a7 a8) := m in
  match k with
  | 0%nat => mat3_fromValues v a1 a2 a3 a4 a5 a6 a7 a8
  | 1%nat => mat3_fromValues a0 v a2 a3 a4 a5 a6 a7 a8
  | 2%nat => mat3_fromValues a0 a1 v a3 a4 a5 a6 a7 a8
  | 3%nat => mat3_fromValues a0 a1 a2 v a4 a5 a6 a7 a8
  | 4%nat => mat3_fromValues a0 a1 a2 a3 v a5 a6 a7 a8
  | 5%nat => mat3_fromValues a0 a1 a2 a3 a4 v a6 a7 a8
  | 6%nat => mat3_fromValues a0 a1 a2 a3 a4 a5 v a7 a8
  | 7%nat => mat3_fromValues a0 a1 a2 a3 a4 a5 a6 v a8
  | 8%nat => mat3_fromValues a0 a1 a2 a3 a4 a5 a6 a7 v
  | _ => m
  end.

Definition quat_set (q : Quat) (k : nat) (v : R) : Quat :=
  let '(quat_fromValues a0 a1 a2 a3) := q in
  match k with
  | 0%nat => quat_fromValues v a1 a2 a3
  | 1%nat => quat_fromValues a0 v a2 a3
  | 2%nat => quat_fromValues a0 a1 v a3
  | 3%nat => quat_fromValues a0 a1 a2 v
  | _ => q
  end.

(** Modelled from the spec: "convert quaternion to a 3x3 rotation matrix",
    with the vector library's formula and element order. *)
Definition mat3_fromQuat (q : Quat) : Mat3 :=
  let x := quat_0 q in let y := quat_1 q in
  let z := quat_2 q in let w := quat_3 q in
  let x2 := x + x in let y2 := y + y in let z2 := z + z in
  let xx := x * x2 in let yx := y * x2 in let yy := y * y2 in
  let zx := z * x2 in let zy := z * y2 in let zz := z * z2 in
  let wx := w * x2 in let wy := w * y2 in let wz := w * z2 in
  mat3_fromValues
    (1 - yy - zz) (yx + wz) (zx - wy)
    (yx - wz) (1 - xx - zz) (zy + wx)
    (zx + wy) (zy - wx) (1 - xx - yy).

(** Modelled from the spec: "convert the resulting matrix back to a
    quaternion", with the vector library's algorithm (the largest of the
    trace and the diagonal entries selects the component computed by a
    square root).  It writes all four components of [out]. *)
Definition quat_fromMat3 (out : Quat) (m : Mat3) : Quat :=
  let fTrace := mat3_get m 0 + mat3_get m 4 + mat3_get m 8 in
  if Rgtb fTrace 0 then
    let fRoot := sqrt (fTrace + 1) in
    let out3 := 0.5 * fRoot in
    let fRoot := 0.5 / fRoot in
    quat_fromValues
      ((mat3_get m 5 - mat3_get m 7) * fRoot)
      ((mat3_get m 6 - mat3_get m 2) * fRoot)
      ((mat3_get m 1 - mat3_get m 3) * fRoot)
      out3
  else
    let i := 0%nat in
    let i := if Rgtb (mat3_get m 4) (mat3_get m 0) then 1%nat else i in
    let i := if Rgtb (mat3_get m 8) (mat3_get m (i * 3 + i)) then 2%nat else i in
    let j := ((i + 1) mod 3)%nat in
    let k := ((i + 2) mod 3)%nat in
    let fRoot :=
      sqrt (mat3_get m (i * 3 + i) - mat3_get m (j * 3 + j)
            - mat3_get m (k * 3 + k) + 1) in
    let out := quat_set out i (0.5 * fRoot) in
    let fRoot := 0.5 / fRoot in
    let out := quat_set out 3 ((mat3_get m (j * 3 + k) - mat3_get m (k * 3 + j)) * fRoot) in
    let out := quat_set out j ((mat3_get m (j * 3 + i) + mat3_get m (i * 3 + j)) * fRoot) in
    quat_set out k ((mat3_get m (k * 3 + i) + mat3_get m (i * 3 + k)) * fRoot).

(** ** Parsing of vectors ([neuroglancer/util/json]) *)

Fixpoint finite_components (elems : list JSValue) : option (list R) :=
  match elems with
  | [] => Some []
  | JSnumber (Num r) :: rest =>
      match finite_components rest with
      | Some rs => Some (r :: rs)
      | None => None
      end
  | _ :: _ => None
  end.

(** Modelled from the spec: [parseFiniteVec] is absent from the sources.
    It accepts an array of the expected length whose components are all
    finite numbers and yields them; any other input (wrong type, wrong
    length, a component that is not a finite number) is a parse failure,
    which the source receives as a thrown error and this model as [None].
    Nothing is written to the output on a failure. *)
Definition parseFiniteVec (length : nat) (obj : JSValue) : option (list R) :=
  match obj with
  | JSarray elems =>
      if Nat.eqb (List.length elems) length then finite_components elems
      else None
  | _ => None
  end.

Definition parseFiniteVec3 (obj : JSValue) : option Vec3 :=
  match parseFiniteVec 3 obj with
  | Some [a; b; c] => Some (vec3_fromValues a b c)
  | _ => None
  end.

(** ** The objects and the world they live in *)

Record VoxelSize : Type := {
  VoxelSize_size : Vec3;
  VoxelSize_valid : bool }.

Record SpatialPosition : Type := {
  SpatialPosition_voxelSize : VoxelSize;
  SpatialPosition_spatialCoordinates : Vec3;
  SpatialPosition_spatialCoordinatesValid : bool;
  SpatialPosition_voxelCoordinates : option Vec3 }.

Record OrientationState : Type := {
  OrientationState_orientation : Quat }.

Record Pose : Type := {
  Pose_position : SpatialPosition;
  Pose_orientation : OrientationState }.

Record NavigationState : Type := {
  NavigationState_pose : Pose;
  NavigationState_zoomFactor : number }.

(** The [changed] signal of each object. *)
Inductive Signal : Type :=
| VoxelSize_changed
| SpatialPosition_changed
| OrientationState_changed
| Pose_changed
| NavigationState_changed.

(** The object graph rooted at a [NavigationState], and the signals
    dispatched so far, the latest first. *)
Record World : Type := {
  navigationState : NavigationState;
  dispatched : list Signal }.

Definition pose (w : World) : Pose := NavigationState_pose (navigationState w).
Definition position (w : World) : SpatialPosition := Pose_position (pose w).
Definition orientation (w : World) : OrientationState := Pose_orientation (pose w).
Definition voxelSize (w : World) : VoxelSize := SpatialPosition_voxelSize (position w).
Definition zoomFactor (w : World) : number := NavigationState_zoomFactor (navigationState w).

(** Assignments to the fields of the objects of the world. *)
Definition set_position (p : SpatialPosition) (w : World) : World :=
  {| navigationState :=
       {| NavigationState_pose :=
            {| Pose_position := p; Pose_orientation := orientation w |};
          NavigationState_zoomFactor := zoomFactor w |};
     dispatched := dispatched w |}.

Definition set_voxelSize (v : VoxelSize) (w : World) : World :=
  set_position
    {| SpatialPosition_voxelSize := v;
       SpatialPosition_spatialCoordinates :=
         SpatialPosition_spatialCoordinates (position w);
       SpatialPosition_spatialCoordinatesValid :=
         SpatialPosition_spatialCoordinatesValid (position w);
       SpatialPosition_voxelCoordinates :=
         SpatialPosition_voxelCoordinates (position w) |} w.

Definition set_size (s : Vec3) (w : World) : World :=
  set_voxelSize
    {| VoxelSize_size := s; VoxelSize_valid := VoxelSize_valid (voxelSize w) |} w.

Definition set_valid (b : bool) (w : World) : World :=
  set_voxelSize
    {| VoxelSize_size := VoxelSize_size (voxelSize w); VoxelSize_valid := b |} w.

Definition set_spatialCoordinates (c : Vec3) (w : World) : World :=
  set_position
    {| SpatialPosition_voxelSize := voxelSize w;
       SpatialPosition_spatialCoordinates := c;
       SpatialPosition_spatialCoordinatesValid :=
         SpatialPosition_spatialCoordinatesValid (position w);
       SpatialPosition_voxelCoordinates :=
         SpatialPosition_voxelCoordinates (position w) |} w.

Definition set_spatialCoordinatesValid (b : bool) (w : World) : World :=
  set_position
    {| SpatialPosition_voxelSize := voxelSize w;
       SpatialPosition_spatialCoordinates :=
         SpatialPosition_spatialCoordinates (position w);
       SpatialPosition_spatialCoordinatesValid := b;
       SpatialPosition_voxelCoordinates :=
         SpatialPosition_voxelCoordinates (position w) |} w.

Definition set_voxelCoordinates (c : option Vec3) (w : World) : World :=
  set_position
    {| SpatialPosition_voxelSize := voxelSize w;
       SpatialPosition_spatialCoordinates :=
         SpatialPosition_spatialCoordinates (position w);
       SpatialPosition_spatialCoordinatesValid :=
         SpatialPosition_spatialCoordinatesValid (position w);
       SpatialPosition_voxelCoordinates := c |} w.

Definition set_orientation (q : Quat) (w : World) : World :=
  {| navigationState :=
       {| NavigationState_pose :=
            {| Pose_position := position w;
               Pose_orientation := {| OrientationState_orientation := q |} |};
          NavigationState_zoomFactor := zoomFactor w |};
     dispatched := dispatched w |}.

Definition set_zoomFactor (z : number) (w : World) : World :=
  {| navigationState :=
       {| NavigationState_pose := pose w; NavigationState_zoomFactor := z |};
     dispatched := dispatched w |}.

Definition log_signal (s : Signal) (w : World) : World :=
  {| navigationState := navigationState w; dispatched := s :: dispatched w |}.

(** ** Getters and unit conversions (lines 77-79, 109-111, 313, 444) *)

Definition SpatialPosition_valid (p : SpatialPosition) : bool :=
  SpatialPosition_spatialCoordinatesValid p
  && VoxelSize_valid (SpatialPosition_voxelSize p).

Definition SpatialPosition_voxelCoordinatesValid (p : SpatialPosition) : bool :=
  SpatialPosition_valid p
  || match SpatialPosition_voxelCoordinates p with Some _ => true | None => false end.

Definition Pose_valid (p : Pose) : bool := SpatialPosition_valid (Pose_position p).

Definition NavigationState_valid (n : NavigationState) : bool :=
  Pose_valid (NavigationState_pose n).

Definition VoxelSize_voxelFromSpatial (this : VoxelSize) (spatial : Vec3) : Vec3 :=
  vec3_divide spatial (VoxelSize_size this).

Definition VoxelSize_spatialFromVoxel (this : VoxelSize) (voxel : Vec3) : Vec3 :=
  vec3_multiply voxel (VoxelSize_size this).

(** ** Dispatch of the signals

    Each dispatch runs the listeners bound by the constructors:
    [Pose] rebroadcasts the signals of its position and its orientation,
    [NavigationState] that of its pose; [SpatialPosition] and then
    [NavigationState] listen to the voxel size. *)

(** [NavigationState.changed.dispatch()]: no listener inside the graph. *)
Definition NavigationState_changed_dispatch (w : World) : World :=
  log_signal NavigationState_changed w.

(** [Pose.changed.dispatch()], with the listener bound at line 399. *)
Definition Pose_changed_dispatch (w : World) : World :=
  NavigationState_changed_dispatch (log_signal Pose_changed w).

(** [SpatialPosition.changed.dispatch()], with the listener bound at
    line 309. *)
Definition SpatialPosition_changed_dispatch (w : World) : World :=
  Pose_changed_dispatch (log_signal SpatialPosition_changed w).

(** [OrientationState.changed.dispatch()], with the listener bound at
    line 310. *)
Definition OrientationState_changed_dispatch (w : World) : World :=
  Pose_changed_dispatch (log_signal OrientationState_changed w).

(** [SpatialPosition.handleVoxelSizeChanged], lines 158-165. *)
Definition SpatialPosition_handleVoxelSizeChanged (w : World) : World :=
  let w :=
    match SpatialPosition_voxelCoordinates (position w) with
    | Some voxelCoordinates =>
        if negb (SpatialPosition_spatialCoordinatesValid (position w)) then
          let w :=
            set_spatialCoordinates
              (VoxelSize_spatialFromVoxel (voxelSize w) voxelCoordinates) w in
          set_spatialCoordinatesValid true w
        else w
    | None => w
    end in
  let w := set_voxelCoordinates None w in
  SpatialPosition_changed_dispatch w.

(** [NavigationState.setZoomFactorFromVoxelSize], lines 418-424. *)
Definition NavigationState_setZoomFactorFromVoxelSize (w : World) : World :=
  if VoxelSize_valid (voxelSize w) then
    let size := VoxelSize_size (voxelSize w) in
    let w :=
      set_zoomFactor
        (Num (Math_min3 (vec3_0 size) (vec3_1 size) (vec3_2 size))) w in
    NavigationState_changed_dispatch w
  else w.

(** [NavigationState.handleVoxelSizeChanged], lines 426-430. *)
Definition NavigationState_handleVoxelSizeChanged (w : World) : World :=
  if Number_isNaN (zoomFactor w) then
    NavigationState_setZoomFactorFromVoxelSize w
  else w.

(** [VoxelSize.changed.dispatch()], with the listeners bound at line 106
    and then at line 400. *)
Definition VoxelSize_changed_dispatch (w : World) : World :=
  let w := log_signal VoxelSize_changed w in
  let w := SpatialPosition_handleVoxelSizeChanged w in
  NavigationState_handleVoxelSizeChanged w.

(** ** VoxelSize *)

(** The constructor of [VoxelSize], lines 27-36. *)
Definition VoxelSize_new (voxelSize : option Vec3) : VoxelSize :=
  match voxelSize with
  | None => {| VoxelSize_size := vec3_create; VoxelSize_valid := false |}
  | Some size => {| VoxelSize_size := size; VoxelSize_valid := true |}
  end.

(** [VoxelSize.reset], lines 38-41. *)
Definition VoxelSize_reset (w : World) : World :=
  VoxelSize_changed_dispatch (set_valid false w).

(** [VoxelSize.setValid], lines 47-52. *)
Definition VoxelSize_setValid (w : World) : World :=
  if negb (VoxelSize_valid (voxelSize w)) then
    VoxelSize_changed_dispatch (set_valid true w)
  else w.

(** [Array.prototype.slice.call] of a typed array: the array of its numbers. *)
Definition json_of_reals (l : list R) : JSValue :=
  JSarray (map (fun r => JSnumber (Num r)) l).

(** [VoxelSize.toJSON], lines 54-59. *)
Definition VoxelSize_toJSON (this : VoxelSize) : JSValue :=
  if negb (VoxelSize_valid this) then JSundefined
  else
    let size := VoxelSize_size this in
    json_of_reals [vec3_0 size; vec3_1 size; vec3_2 size].

(** [VoxelSize.restoreState], lines 61-68: the [catch] branch is the parse
    failure. *)
Definition VoxelSize_restoreState (obj : JSValue) (w : World) : World :=
  match parseFiniteVec3 obj with
  | Some size => VoxelSize_setValid (set_size size w)
  | None => set_valid false w
  end.

(** ** SpatialPosition *)

(** The constructor of [SpatialPosition], lines 90-107. *)
Definition SpatialPosition_new
    (voxelSize : option VoxelSize) (spatialCoordinates : option Vec3)
  : SpatialPosition :=
  let voxelSize :=
    match voxelSize with Some v => v | None => VoxelSize_new None end in
  match spatialCoordinates with
  | None =>
      {| SpatialPosition_voxelSize := voxelSize;
         SpatialPosition_spatialCoordinates := vec3_create;
         SpatialPosition_spatialCoordinatesValid := false;
         SpatialPosition_voxelCoordinates := None |}
  | Some c =>
      {| SpatialPosition_voxelSize := voxelSize;
         SpatialPosition_spatialCoordinates := c;
         SpatialPosition_spatialCoordinatesValid := true;
         SpatialPosition_voxelCoordinates := None |}
  end.

(** [SpatialPosition.reset], lines 113-117. *)
Definition SpatialPosition_reset (w : World) : World :=
  let w := set_spatialCoordinatesValid false w in
  let w := set_voxelCoordinates None w in
  SpatialPosition_changed_dispatch w.

(** [SpatialPosition.getVoxelCoordinates(out)], lines 119-129: the value
    written to [out], or [None] when the method returns [false]. *)
Definition SpatialPosition_getVoxelCoordinates (this : SpatialPosition)
  : option Vec3 :=
  match SpatialPosition_voxelCoordinates this with
  | Some voxelCoordinates => Some voxelCoordinates
  | None =>
      if SpatialPosition_valid this then
        Some (VoxelSize_voxelFromSpatial (SpatialPosition_voxelSize this)
                (SpatialPosition_spatialCoordinates this))
      else None
  end.

(** [SpatialPosition.markSpatialCoordinatesChanged], lines 152-156. *)
Definition SpatialPosition_markSpatialCoordinatesChanged (w : World) : World :=
  let w := set_spatialCoordinatesValid true w in
  let w := set_voxelCoordinates None w in
  SpatialPosition_changed_dispatch w.

(** [SpatialPosition.setVoxelCoordinates], lines 136-150. *)
Definition SpatialPosition_setVoxelCoordinates
    (voxelCoordinates : Vec3) (w : World) : World :=
  let w :=
    if VoxelSize_valid (voxelSize w) then
      let w :=
        set_spatialCoordinates
          (VoxelSize_spatialFromVoxel (voxelSize w) voxelCoordinates) w in
      SpatialPosition_markSpatialCoordinatesChanged w
    else set_voxelCoordinates (Some voxelCoordinates) w in
  SpatialPosition_changed_dispatch w.

(** [SpatialPosition.restoreState], lines 190-206.  The read of
    [obj['voxelSize']] is outside the [try] blocks; inside them every
    failure is caught. *)
Definition SpatialPosition_restoreState (obj : JSValue) (w : World)
  : Completion World :=
  match get_property obj "voxelSize" with
  | Throw e => Throw e
  | Normal voxelSizeJson =>
      let w := VoxelSize_restoreState voxelSizeJson w in
      let w := set_spatialCoordinatesValid false w in
      let w :=
        if hasOwnProperty obj "voxelCoordinates" then
          match get_property obj "voxelCoordinates" with
          | Normal json =>
              match parseFiniteVec3 json with
              | Some voxelCoordinates =>
                  SpatialPosition_setVoxelCoordinates voxelCoordinates w
              | None => w
              end
          | Throw _ => w
          end
        else w in
      match get_property obj "spatialCoordinates" with
      | Normal json =>
          match parseFiniteVec3 json with
          | Some spatialCoordinates =>
              Normal
                (SpatialPosition_markSpatialCoordinatesChanged
                   (set_spatialCoordinates spatialCoordinates w))
          | None => Normal w
          end
      | Throw _ => Normal w
      end
  end.

(** ** OrientationState *)

(** [quaternionIsIdentity], lines 229-231. *)
Definition quaternionIsIdentity (quat : Quat) : bool :=
  Reqb (quat_0 quat) 0 && Reqb (quat_1 quat) 0
  && Reqb (quat_2 quat) 0 && Reqb (quat_3 quat) 1.

(** The constructor of [OrientationState], lines 236-242. *)
Definition OrientationState_new (orientation : option Quat) : OrientationState :=
  match orientation with
  | None => {| OrientationState_orientation := quat_create |}
  | Some q => {| OrientationState_orientation := q |}
  end.

(** [OrientationState.toJSON], lines 243-249. *)
Definition OrientationState_toJSON (this : OrientationState) : JSValue :=
  let orientation := OrientationState_orientation this in
  if quaternionIsIdentity orientation then JSundefined
  else
    json_of_reals
      [quat_0 orientation; quat_1 orientation;
       quat_2 orientation; quat_3 orientation].

(** [OrientationState.reset], lines 260-263. *)
Definition OrientationState_reset (w : World) : World :=
  OrientationState_changed_dispatch (set_orientation quat_identity w).

(** A write to a JavaScript array at an index within its length. *)
Fixpoint array_set {A : Type} (a : list A) (k : nat) (v : A) : list A :=
  match a, k with
  | [], _ => []
  | _ :: rest, O => v :: rest
  | x :: rest, S k' => x :: array_set rest k' v
  end.

(** One turn of the inner loop of [snap] (lines 273-283), for row [i] and
    column [j]. *)
Definition snap_column (usedAxes : list bool) (i : nat)
    (st : Mat3 * R * nat) (j : nat) : Mat3 * R * nat :=
  let '(mat, maxComponent, argmaxComponent) := st in
  let value := mat3_get mat (i * 3 + j) in
  let mat := mat3_set mat (i * 3 + j) 0 in
  if nth j usedAxes false then (mat, maxComponent, argmaxComponent)
  else if Rgtb (Math_abs value) (Math_abs maxComponent) then (mat, value, j)
  else (mat, maxComponent, argmaxComponent).

(** One turn of the outer loop of [snap] (lines 270-286), for row [i]. *)
Definition snap_row (st : Mat3 * list bool) (i : nat) : Mat3 * list bool :=
  let '(mat, usedAxes) := st in
  let '(mat, maxComponent, argmaxComponent) :=
    fold_left (snap_column usedAxes i) (seq 0 3) (mat, 0, 0%nat) in
  (mat3_set mat (i * 3 + argmaxComponent) (Math_sign maxComponent),
   array_set usedAxes argmaxComponent true).

(** The two nested loops of [snap] on the matrix. *)
Definition snap_matrix (mat : Mat3) : Mat3 :=
  fst (fold_left snap_row (seq 0 3) (mat, [false; false; false])).

(** [OrientationState.snap], lines 265-290. *)
Definition OrientationState_snap (w : World) : World :=
  let this := OrientationState_orientation (orientation w) in
  let mat := mat3_fromQuat this in
  let mat := snap_matrix mat in
  let w := set_orientation (quat_fromMat3 this mat) w in
  OrientationState_changed_dispatch w.

(** ** Pose *)

(** The constructor of [Pose], lines 297-311. *)
Definition Pose_new
    (position : option SpatialPosition) (orientation : option OrientationState)
  : Pose :=
  {| Pose_position :=
       match position with
       | Some p => p
       | None => SpatialPosition_new None None
       end;
     Pose_orientation :=
       match orientation with
       | Some o => o
       | None => OrientationState_new None
       end |}.

(** [Pose.reset], lines 318-321. *)
Definition Pose_reset (w : World) : World :=
  OrientationState_reset (SpatialPosition_reset w).

(** [Pose.translateAbsolute], lines 353-356. *)
Definition Pose_translateAbsolute (translation : Vec3) (w : World) : World :=
  let w :=
    set_spatialCoordinates
      (vec3_add (SpatialPosition_spatialCoordinates (position w)) translation) w in
  SpatialPosition_changed_dispatch w.

(** [Pose.translateRelative], lines 357-365. *)
Definition Pose_translateRelative (translation : Vec3) (w : World) : World :=
  if negb (Pose_valid (pose w)) then w
  else
    let temp :=
      vec3_transformQuat translation
        (OrientationState_orientation (orientation w)) in
    let w :=
      set_spatialCoordinates
        (vec3_add (SpatialPosition_spatialCoordinates (position w)) temp) w in
    SpatialPosition_changed_dispatch w.

(** ** NavigationState *)

(** The constructor of [NavigationState], lines 387-402. *)
Definition NavigationState_new
    (pose : option Pose) (zoomFactor : option number) : World :=
  let pose := match pose with Some p => p | None => Pose_new None None end in
  let zoomFactor := match zoomFactor with Some z => z | None => NaN end in
  let w :=
    {| navigationState :=
         {| NavigationState_pose := pose;
            NavigationState_zoomFactor := zoomFactor |};
       dispatched := [] |} in
  NavigationState_setZoomFactorFromVoxelSize w.

(** [NavigationState.resetZoom], lines 413-416. *)
Definition NavigationState_resetZoom (w : World) : World :=
  NavigationState_changed_dispatch (set_zoomFactor NaN w).

(** [NavigationState.reset], lines 408-411. *)
Definition NavigationState_reset (w : World) : World :=
  NavigationState_resetZoom (Pose_reset w).

(** [NavigationState.zoomBy], lines 436-442. *)
Definition NavigationState_zoomBy (factor : R) (w : World) : World :=
  match zoomFactor w with
  | NaN => w
  | Num z => NavigationState_changed_dispatch (set_zoomFactor (Num (z * factor)) w)
  end.

(** ** The remaining methods

    [Math.round], the quaternion routines used by the rotations and by
    [OrientationState.restoreState], and the methods of the file not yet
    given above. *)

(** [Math.round]: the nearest integer, a half rounding upwards. *)
Definition Math_round (x : R) : R := IZR (Int_part (x + 0.5)).

(** Indexed reads and writes of a three-element typed array. *)
Definition vec3_get (v : Vec3) (k : nat) : R :=
  match k with
  | 0%nat => vec3_0 v | 1%nat => vec3_1 v | 2%nat => vec3_2 v
  | _ => 0
  end.

Definition vec3_set (v : Vec3) (k : nat) (x : R) : Vec3 :=
  let '(vec3_fromValues a0 a1 a2) := v in
  match k with
  | 0%nat => vec3_fromValues x a1 a2
  | 1%nat => vec3_fromValues a0 x a2
  | 2%nat => vec3_fromValues a0 a1 x
  | _ => v
  end.

(** Modelled from the spec: "parses a finite 4-vector and normalizes it",
    with the vector library's [normalize], which scales a vector of
    positive squared length by the inverse of its length and writes nothing
    otherwise. *)
Definition quat_normalize (out a : Quat) : Quat :=
  let x := quat_0 a in let y := quat_1 a in
  let z := quat_2 a in let w := quat_3 a in
  let len := x * x + y * y + z * z + w * w in
  if Rgtb len 0 then
    let len := 1 / sqrt len in
    quat_fromValues (x * len) (y * len) (z * len) (w * len)
  else out.

(** Modelled from the spec: "builds a quaternion from axis+angle", with the
    vector library's formula. *)
Definition quat_setAxisAngle (axis : Vec3) (rad : R) : Quat :=
  let rad := rad * 0.5 in
  let s := sin rad in
  quat_fromValues (s * vec3_0 axis) (s * vec3_1 axis) (s * vec3_2 axis) (cos rad).

(** Modelled from the spec: the product of two quaternions, with the vector
    library's formula. *)
Definition quat_multiply (a b : Quat) : Quat :=
  let ax := quat_0 a in let ay := quat_1 a in
  let az := quat_2 a in let aw := quat_3 a in
  let bx := quat_0 b in let by_ := quat_1 b in
  let bz := quat_2 b in let bw := quat_3 b in
  quat_fromValues
    (ax * bw + aw * bx + ay * bz - az * by_)
    (ay * bw + aw * by_ + az * bx - ax * bz)
    (az * bw + aw * bz + ax * by_ - ay * bx)
    (aw * bw - ax * bx - ay * by_ - az * bz).

Definition parseFiniteVec4 (obj : JSValue) : option Quat :=
  match parseFiniteVec 4 obj with
  | Some [a; b; c; d] => Some (quat_fromValues a b c d)
  | _ => None
  end.

(** The conversion to a boolean that [!obj] applies, and [typeof obj]. *)
Definition ToBoolean (v : JSValue) : bool :=
  match v with
  | JSundefined | JSnull => false
  | JSboolean b => b
  | JSnumber NaN => false
  | JSnumber (Num r) => negb (Reqb r 0)
  | JSstring s => negb (String.eqb s "")
  | JSarray _ | JSobject _ => true
  end.

Definition typeof (v : JSValue) : string :=
  match v with
  | JSundefined => "undefined"
  | JSnull => "object"
  | JSboolean _ => "boolean"
  | JSnumber _ => "number"
  | JSstring _ => "string"
  | JSarray _ | JSobject _ => "object"
  end.

(** [SpatialPosition.toJSON], lines 167-188.  [tempVec3] is the content of
    the temporary vector of the module (line 82) before the call: it is
    what would be serialised if [getVoxelCoordinates] wrote nothing.  The
    properties of the object are listed in the order they are assigned. *)
Definition SpatialPosition_toJSON (tempVec3 : Vec3) (this : SpatialPosition)
  : JSValue :=
  let voxelSizeJson := VoxelSize_toJSON (SpatialPosition_voxelSize this) in
  let obj :=
    match voxelSizeJson with
    | JSundefined => []
    | _ => [("voxelSize"%string, voxelSizeJson)]
    end in
  let obj :=
    if SpatialPosition_voxelCoordinatesValid this then
      let voxelCoordinates :=
        match SpatialPosition_getVoxelCoordinates this with
        | Some out => out
        | None => tempVec3
        end in
      obj ++ [("voxelCoordinates"%string,
               json_of_reals [vec3_0 voxelCoordinates; vec3_1 voxelCoordinates;
                              vec3_2 voxelCoordinates])]
    else if SpatialPosition_spatialCoordinatesValid this then
      let spatialCoordinates := SpatialPosition_spatialCoordinates this in
      obj ++ [("spatialCoordinates"%string,
               json_of_reals [vec3_0 spatialCoordinates; vec3_1 spatialCoordinates;
                              vec3_2 spatialCoordinates])]
    else obj in
  match obj with
  | [] => JSundefined
  | _ => JSobject obj
  end.

(** [SpatialPosition.snapToVoxel], lines 208-226. *)
Definition SpatialPosition_snapToVoxel (w : World) : World :=
  if negb (SpatialPosition_valid (position w)) then
    match SpatialPosition_voxelCoordinates (position w) with
    | Some voxelCoordinates =>
        let voxelCoordinates :=
          fold_left
            (fun v i => vec3_set v i (Math_round (vec3_get v i)))
            (seq 0 3) voxelCoordinates in
        SpatialPosition_changed_dispatch
          (set_voxelCoordinates (Some voxelCoordinates) w)
    | None => w
    end
  else
    let voxelSize := VoxelSize_size (voxelSize w) in
    let spatialCoordinates :=
      fold_left
        (fun s i =>
           let voxelSizeValue := vec3_get voxelSize i in
           vec3_set s i (Math_round (vec3_get s i / voxelSizeValue) * voxelSizeValue))
        (seq 0 3) (SpatialPosition_spatialCoordinates (position w)) in
    SpatialPosition_changed_dispatch (set_spatialCoordinates spatialCoordinates w).

(** [OrientationState.restoreState], lines 250-258. *)
Definition OrientationState_restoreState (obj : JSValue) (w : World) : World :=
  let orientation :=
    match parseFiniteVec4 obj with
    | Some q => quat_normalize q q
    | None => quat_identity
    end in
  OrientationState_changed_dispatch (set_orientation orientation w).

(** [Pose.toJSON], lines 330-337: both properties are assigned, also when
    one of the two values is [undefined]. *)
Definition Pose_toJSON (tempVec3 : Vec3) (this : Pose) : JSValue :=
  let positionJson := SpatialPosition_toJSON tempVec3 (Pose_position this) in
  let orientationJson := OrientationState_toJSON (Pose_orientation this) in
  match positionJson, orientationJson with
  | JSundefined, JSundefined => JSundefined
  | _, _ =>
      JSobject [("position"%string, positionJson);
                ("orientation"%string, orientationJson)]
  end.

(** [Pose.restoreState], lines 339-342. *)
Definition Pose_restoreState (obj : JSValue) (w : World) : Completion World :=
  match get_property obj "position" with
  | Throw e => Throw e
  | Normal positionJson =>
      match SpatialPosition_restoreState positionJson w with
      | Throw e => Throw e
      | Normal w =>
          match get_property obj "orientation" with
          | Throw e => Throw e
          | Normal orientationJson =>
              Normal (OrientationState_restoreState orientationJson w)
          end
      end
  end.

(** [Pose.snap], lines 348-352. *)
Definition Pose_snap (w : World) : World :=
  Pose_changed_dispatch (SpatialPosition_snapToVoxel (OrientationState_snap w)).

(** [Pose.rotateRelative], lines 366-372. *)
Definition Pose_rotateRelative (axis : Vec3) (angle : R) (w : World) : World :=
  let temp := quat_setAxisAngle axis angle in
  let orientation := OrientationState_orientation (orientation w) in
  OrientationState_changed_dispatch
    (set_orientation (quat_multiply orientation temp) w).

(** [Pose.rotateAbsolute], lines 374-380. *)
Definition Pose_rotateAbsolute (axis : Vec3) (angle : R) (w : World) : World :=
  let temp := quat_setAxisAngle axis angle in
  let orientation := OrientationState_orientation (orientation w) in
  OrientationState_changed_dispatch
    (set_orientation (quat_multiply temp orientation) w).

(** [NavigationState.toJSON], lines 446-454. *)
Definition NavigationState_toJSON (tempVec3 : Vec3) (this : NavigationState)
  : JSValue :=
  let poseJson := Pose_toJSON tempVec3 (NavigationState_pose this) in
  let zoomFactorJson :=
    match NavigationState_zoomFactor this with
    | NaN => JSundefined
    | Num z => JSnumber (Num z)
    end in
  match poseJson, zoomFactorJson with
  | JSundefined, JSundefined => JSundefined
  | _, _ =>
      JSobject [("pose"%string, poseJson); ("zoomFactor"%string, zoomFactorJson)]
  end.

(** [NavigationState.restoreState], lines 456-469.  [parseFloat] is the
    function of the language, taken as a parameter. *)
Definition NavigationState_restoreState
    (parseFloat : JSValue -> number) (obj : JSValue) (w : World)
  : Completion World :=
  if negb (ToBoolean obj) || negb (String.eqb (typeof obj) "object") then
    Normal w
  else
    match get_property obj "pose" with
    | Throw e => Throw e
    | Normal poseJson =>
        match Pose_restoreState poseJson w with
        | Throw e => Throw e
        | Normal w =>
            match get_property obj "zoomFactor" with
            | Throw e => Throw e
            | Normal zoomFactorJson =>
                let zoomFactor := parseFloat zoomFactorJson in
                let w :=
                  match zoomFactor with
                  | Num z => set_zoomFactor (Num z) w
                  | NaN => set_zoomFactor NaN w
                  end in
                let w := NavigationState_handleVoxelSizeChanged w in
                Normal (NavigationState_changed_dispatch w)
            end
        end
    end.

(** [TrackableZoomState.restoreState], lines 475-485.  For a number,
    [parseFloat('' + obj)] is that number. *)
Definition TrackableZoomState_restoreState (obj : JSValue) (w : World) : World :=
  match obj with
  | JSnumber zoomFactor =>
      match zoomFactor with
      | Num z => NavigationState_changed_dispatch (set_zoomFactor (Num z) w)
      | NaN => w
      end
  | _ => w
  end.

(** [TrackableZoomState.toJSON], lines 486-491. *)
Definition TrackableZoomState_toJSON (w : World) : JSValue :=
  if negb (NavigationState_valid (navigationState w)) then JSundefined
  else JSnumber (zoomFactor w).

(** ** Notions used to state the properties *)

(** [obj[key]] for an [obj] that is an object: the own property, or
    [undefined]. *)
Definition property (obj : JSValue) (key : string) : JSValue :=
  match get_property obj key with
  | Normal v => v
  | Throw _ => JSundefined
  end.


Definition mat3_entries (m : Mat3) : list R :=
  [mat3_0 m; mat3_1 m; mat3_2 m; mat3_3 m; mat3_4 m; mat3_5 m;
   mat3_6 m; mat3_7 m; mat3_8 m].

Definition dot3 (a0 a1 a2 b0 b1 b2 : R) : R := a0 * b0 + a1 * b1 + a2 * b2.

(** The three triples of a matrix have unit length and are pairwise
    orthogonal. *)
Definition mat3_orthonormal (m : Mat3) : Prop :=
  dot3 (mat3_0 m) (mat3_1 m) (mat3_2 m) (mat3_0 m) (mat3_1 m) (mat3_2 m) = 1
  /\ dot3 (mat3_3 m) (mat3_4 m) (mat3_5 m) (mat3_3 m) (mat3_4 m) (mat3_5 m) = 1
  /\ dot3 (mat3_6 m) (mat3_7 m) (mat3_8 m) (mat3_6 m) (mat3_7 m) (mat3_8 m) = 1
  /\ dot3 (mat3_0 m) (mat3_1 m) (mat3_2 m) (mat3_3 m) (mat3_4 m) (mat3_5 m) = 0
  /\ dot3 (mat3_0 m) (mat3_1 m) (mat3_2 m) (mat3_6 m) (mat3_7 m) (mat3_8 m) = 0
  /\ dot3 (mat3_3 m) (mat3_4 m) (mat3_5 m) (mat3_6 m) (mat3_7 m) (mat3_8 m) = 0.

Definition mat3_determinant (m : Mat3) : R :=
  mat3_0 m * (mat3_4 m * mat3_8 m - mat3_5 m * mat3_7 m)
  - mat3_1 m * (mat3_3 m * mat3_8 m - mat3_5 m * mat3_6 m)
  + mat3_2 m * (mat3_3 m * mat3_7 m - mat3_4 m * mat3_6 m).

Definition unit_entry (x : R) : Prop := x = -1 \/ x = 0 \/ x = 1.

(** A rotation by multiples of 90 degrees about the coordinate axes: a
    rotation matrix (orthonormal, of determinant one) whose entries are all
    [-1], [0] or [1]. *)
Definition axis_aligned (m : Mat3) : Prop :=
  Forall unit_entry (mat3_entries m)
  /\ mat3_orthonormal m
  /\ mat3_determinant m = 1.

(** A unit quaternion, and the quaternion with all components negated,
    which represents the same rotation. *)
Definition quat_unit (q : Quat) : Prop :=
  quat_0 q * quat_0 q + quat_1 q * quat_1 q
  + quat_2 q * quat_2 q + quat_3 q * quat_3 q = 1.


(** The world a [NavigationState] built without arguments starts in. *)
Definition fresh_world : World := NavigationState_new None None.

(** ** Notions used to state the further properties *)


(** A voxel coordinate is pending only while the voxel size is not valid. *)
Definition pending_only_while_invalid (p : SpatialPosition) : Prop :=
  SpatialPosition_voxelCoordinates p <> None ->
  VoxelSize_valid (SpatialPosition_voxelSize p) = false.

Definition nullish (v : JSValue) : Prop := v = JSundefined \/ v = JSnull.






(** A [parseFloat] that knows numbers only, for the examples. *)
Definition parseFloat_of_number (v : JSValue) : number :=
  match v with
  | JSnumber n => n
  | _ => NaN
  end.

(** The calls a user of the module can make on the object graph of a
    [NavigationState]. *)
Inductive Operation : Type :=
| call_VoxelSize_reset
| call_VoxelSize_setValid
| call_VoxelSize_restoreState (obj : JSValue)
| call_SpatialPosition_reset
| call_SpatialPosition_setVoxelCoordinates (voxelCoordinates : Vec3)
| call_SpatialPosition_markSpatialCoordinatesChanged
| call_SpatialPosition_restoreState (obj : JSValue)
| call_SpatialPosition_snapToVoxel
| call_OrientationState_restoreState (obj : JSValue)
| call_OrientationState_reset
| call_OrientationState_snap
| call_Pose_reset
| call_Pose_restoreState (obj : JSValue)
| call_Pose_snap
| call_Pose_translateAbsolute (translation : Vec3)
| call_Pose_translateRelative (translation : Vec3)
| call_Pose_rotateRelative (axis : Vec3) (angle : R)
| call_Pose_rotateAbsolute (axis : Vec3) (angle : R)
| call_NavigationState_reset
| call_NavigationState_resetZoom
| call_NavigationState_zoomBy (factor : R)
| call_NavigationState_restoreState (obj : JSValue)
| call_TrackableZoomState_restoreState (obj : JSValue).

(** The world after a call that may throw: every [throw] of the three
    fallible methods precedes their first assignment, so the world of a
    call that throws is the world before it. *)
Definition world_after (w : World) (c : Completion World) : World :=
  match c with
  | Normal w' => w'
  | Throw _ => w
  end.

Definition run (parseFloat : JSValue -> number) (op : Operation) (w : World)
  : World :=
  match op with
  | call_VoxelSize_reset => VoxelSize_reset w
  | call_VoxelSize_setValid => VoxelSize_setValid w
  | call_VoxelSize_restoreState obj => VoxelSize_restoreState obj w
  | call_SpatialPosition_reset => SpatialPosition_reset w
  | call_SpatialPosition_setVoxelCoordinates v =>
      SpatialPosition_setVoxelCoordinates v w
  | call_SpatialPosition_markSpatialCoordinatesChanged =>
      SpatialPosition_markSpatialCoordinatesChanged w
  | call_SpatialPosition_restoreState obj =>
      world_after w (SpatialPosition_restoreState obj w)
  | call_SpatialPosition_snapToVoxel => SpatialPosition_snapToVoxel w
  | call_OrientationState_restoreState obj => OrientationState_restoreState obj w
  | call_OrientationState_reset => OrientationState_reset w
  | call_OrientationState_snap => OrientationState_snap w
  | call_Pose_reset => Pose_reset w
  | call_Pose_restoreState obj => world_after w (Pose_restoreState obj w)
  | call_Pose_snap => Pose_snap w
  | call_Pose_translateAbsolute t => Pose_translateAbsolute t w
  | call_Pose_translateRelative t => Pose_translateRelative t w
  | call_Pose_rotateRelative axis angle => Pose_rotateRelative axis angle w
  | call_Pose_rotateAbsolute axis angle => Pose_rotateAbsolute axis angle w
  | call_NavigationState_reset => NavigationState_reset w
  | call_NavigationState_resetZoom => NavigationState_resetZoom w
  | call_NavigationState_zoomBy factor => NavigationState_zoomBy factor w
  | call_NavigationState_restoreState obj =>
      world_after w (NavigationState_restoreState parseFloat obj w)
  | call_TrackableZoomState_restoreState obj =>
      TrackableZoomState_restoreState obj w
  end.

(** The worlds that the constructors and a sequence of calls lead to. *)
Inductive reachable (parseFloat : JSValue -> number) : World -> Prop :=
| reachable_new (voxelSize spatialCoordinates : option Vec3)
    (orientation : option Quat) (zoomFactor : option number) :
    reachable parseFloat
      (NavigationState_new
         (Some (Pose_new
                  (Some (SpatialPosition_new (Some (VoxelSize_new voxelSize))
                           spatialCoordinates))
                  (Some (OrientationState_new orientation))))
         zoomFactor)
| reachable_run (op : Operation) (w : World) :
    reachable parseFloat w -> reachable parseFloat (run parseFloat op w).





(** * Properties *)

(** ** Evaluation of comparisons and of the world's operations *)

Lemma Rgtb_true (a b : R) : b < a -> Rgtb a b = true.
Proof.
  intros H. unfold Rgtb. destruct (Rlt_dec b a); [reflexivity | contradiction].
Qed.

Lemma Rgtb_false (a b : R) : a <= b -> Rgtb a b = false.
Proof.
  intros H. unfold Rgtb. destruct (Rlt_dec b a); [lra | reflexivity].
Qed.

Lemma Reqb_eq (a b : R) : Reqb a b = true <-> a = b.
Proof.
  unfold Reqb. destruct (Req_dec_T a b); split; congruence.
Qed.

Ltac decide_Rgtb :=
  match goal with
  | |- context [Rgtb ?a ?b] =>
      first [ rewrite (Rgtb_true a b) by lra | rewrite (Rgtb_false a b) by lra ]
  end.

(** Opens a world into its fields, with the flags and the optional values
    split into their cases. *)
Ltac destruct_world w :=
  let size := fresh "size" in
  let spatial := fresh "spatial" in
  let pending := fresh "pending" in
  let quat := fresh "quat" in
  let zoom := fresh "zoom" in
  let log := fresh "log" in
  destruct w as [[[[[size [|]] spatial [|] [pending|]] [quat]] [|zoom]] log].

Lemma Math_min3_least (a b c : R) :
  (Math_min3 a b c <= a /\ Math_min3 a b c <= b /\ Math_min3 a b c <= c)
  /\ (Math_min3 a b c = a \/ Math_min3 a b c = b \/ Math_min3 a b c = c).
Proof.
  unfold Math_min3, Rmin. repeat destruct Rle_dec; lra.
Qed.

Lemma parseFiniteVec3_Some (obj : JSValue) (v : Vec3) :
  parseFiniteVec3 obj = Some v
  <-> obj = json_of_reals [vec3_0 v; vec3_1 v; vec3_2 v].
Proof.
  split.
  - unfold parseFiniteVec3, parseFiniteVec.
    destruct obj as [ | | | | | elems | ]; try discriminate.
    destruct elems as [|e0 [|e1 [|e2 [|e3 rest]]]]; try discriminate.
    cbn.
    destruct e0 as [ | | |[|a]| | | ]; try discriminate.
    destruct e1 as [ | | |[|b]| | | ]; try discriminate.
    destruct e2 as [ | | |[|c]| | | ]; try discriminate.
    intros H; injection H as <-. reflexivity.
  - intros ->. destruct v; reflexivity.
Qed.

(** ** VoxelSize.restoreState *)

(** C9: [VoxelSize.restoreState] is a total function of its input (no
    exception escapes it).  On a parse failure it leaves [valid] false and
    [size] as it was; on a successful parse it copies the parsed vector to
    [size] and leaves [valid] true.  So the voxel size is valid afterwards
    exactly when the input is an array of three finite numbers, which are
    then its [size]; on every other input (wrong type, wrong length, a
    component that is not a finite number) [valid] is [false]. *)
Theorem VoxelSize_restoreState_valid_iff_parsed (obj : JSValue) (w : World) :
  let w' := VoxelSize_restoreState obj w in
  match parseFiniteVec3 obj with
  | Some size =>
      VoxelSize_size (voxelSize w') = size
      /\ VoxelSize_valid (voxelSize w') = true
  | None =>
      VoxelSize_size (voxelSize w') = VoxelSize_size (voxelSize w)
      /\ VoxelSize_valid (voxelSize w') = false
  end
  /\ (VoxelSize_valid (voxelSize w') = true
      <-> exists a b c, obj = json_of_reals [a; b; c])
  /\ (VoxelSize_valid (voxelSize w') = false
      <-> forall a b c, obj <> json_of_reals [a; b; c])
  /\ (forall a b c, obj = json_of_reals [a; b; c] ->
      VoxelSize_size (voxelSize w') = vec3_fromValues a b c).
Proof.
  intros w'. subst w'. unfold VoxelSize_restoreState.
  destruct (parseFiniteVec3 obj) as [size|] eqn:Hparse.
  - apply parseFiniteVec3_Some in Hparse.
    assert (Hvalid :
      VoxelSize_valid (voxelSize (VoxelSize_setValid (set_size size w))) = true)
      by (destruct_world w; reflexivity).
    assert (Hsize :
      VoxelSize_size (voxelSize (VoxelSize_setValid (set_size size w))) = size)
      by (destruct_world w; reflexivity).
    rewrite Hvalid, Hsize. repeat split.
    + intros _. eauto.
    + discriminate.
    + intros H. exfalso. eapply H. exact Hparse.
    + intros a b c ->. destruct size as [s0 s1 s2]. cbn in Hparse.
      injection Hparse as -> -> ->. reflexivity.
  - assert (Hnone : forall a b c, obj <> json_of_reals [a; b; c]).
    { intros a b c ->. discriminate Hparse. }
    assert (Hvalid : VoxelSize_valid (voxelSize (set_valid false w)) = false)
      by reflexivity.
    rewrite Hvalid. repeat split; try discriminate; auto.
    + intros (a & b & c & ->). discriminate Hparse.
    + intros a b c H. exfalso. exact (Hnone a b c H).
Qed.

(** The two malformed inputs the specification names. *)
Example VoxelSize_restoreState_strings (w : World) :
  VoxelSize_valid
    (voxelSize
       (VoxelSize_restoreState
          (JSarray [JSstring "a"; JSstring "b"; JSstring "c"]) w)) = false.
Proof. reflexivity. Qed.

Example VoxelSize_restoreState_two_elements (w : World) :
  VoxelSize_valid
    (voxelSize (VoxelSize_restoreState (json_of_reals [1; 2]) w)) = false.
Proof. reflexivity. Qed.

(** ** The zoom factor derived from the voxel size *)

(** What the two listeners of the voxel size do to the zoom factor: it is
    replaced only while it is [NaN], and then only by the least component
    of a valid voxel size. *)
Lemma VoxelSize_changed_dispatch_zoomFactor (w : World) :
  zoomFactor (VoxelSize_changed_dispatch w)
  = match zoomFactor w with
    | Num z => Num z
    | NaN =>
        if VoxelSize_valid (voxelSize w) then
          let size := VoxelSize_size (voxelSize w) in
          Num (Math_min3 (vec3_0 size) (vec3_1 size) (vec3_2 size))
        else NaN
    end.
Proof. destruct_world w; reflexivity. Qed.

Lemma VoxelSize_changed_dispatch_voxelSize (w : World) :
  voxelSize (VoxelSize_changed_dispatch w) = voxelSize w.
Proof. destruct_world w; reflexivity. Qed.

(** C1: a [NavigationState] built without a zoom factor, on a voxel size
    that is not valid, has the zoom factor [NaN]; once the voxel size
    becomes valid (by [restoreState] on three finite numbers, or by
    [setValid]) the zoom factor is the least of the three components of
    the voxel size. *)
Theorem NavigationState_zoomFactor_derived_from_voxelSize
    (pose : option Pose) (obj : JSValue) (size : Vec3) :
  let w0 := NavigationState_new pose None in
  VoxelSize_valid (voxelSize w0) = false ->
  parseFiniteVec3 obj = Some size ->
  zoomFactor w0 = NaN
  /\ (let w1 := VoxelSize_restoreState obj w0 in
      VoxelSize_valid (voxelSize w1) = true
      /\ exists m,
          zoomFactor w1 = Num m
          /\ m = Rmin (Rmin (vec3_0 size) (vec3_1 size)) (vec3_2 size)
          /\ (m <= vec3_0 size /\ m <= vec3_1 size /\ m <= vec3_2 size)
          /\ (m = vec3_0 size \/ m = vec3_1 size \/ m = vec3_2 size))
  /\ (let w1 := VoxelSize_setValid w0 in
      let size0 := VoxelSize_size (voxelSize w0) in
      VoxelSize_valid (voxelSize w1) = true
      /\ zoomFactor w1
         = Num (Rmin (Rmin (vec3_0 size0) (vec3_1 size0)) (vec3_2 size0))).
Proof.
  intros w0 Hinvalid Hparse. subst w0.
  unfold VoxelSize_restoreState. rewrite Hparse.
  pose proof (Math_min3_least (vec3_0 size) (vec3_1 size) (vec3_2 size)) as Hmin.
  destruct pose as [[[[s [|]] sc [|] [vc|]] [q]]|]; cbn in *;
    try discriminate;
    (split; [reflexivity |]);
    (split; [split; [reflexivity | eexists; split; [reflexivity | tauto]] |]);
    split; reflexivity.
Qed.

(** The example of the specification: voxel size [[2,4,3]] gives zoom [2]. *)
Lemma NavigationState_zoomFactor_derived_example :
  zoomFactor (VoxelSize_restoreState (json_of_reals [2; 4; 3]) fresh_world)
  = Num 2.
Proof.
  destruct (NavigationState_zoomFactor_derived_from_voxelSize
              None (json_of_reals [2; 4; 3]) (vec3_fromValues 2 4 3)
              eq_refl eq_refl) as (_ & (_ & m & Hzoom & Hm & _) & _).
  unfold fresh_world. rewrite Hzoom. f_equal. rewrite Hm. cbn.
  unfold Rmin. repeat destruct Rle_dec; lra.
Defined.

(** A zoom factor that is set survives every change of the voxel size. *)
Lemma VoxelSize_change_keeps_zoomFactor (obj : JSValue) (w : World) (z : R) :
  zoomFactor w = Num z ->
  zoomFactor (VoxelSize_reset w) = Num z
  /\ zoomFactor (VoxelSize_setValid w) = Num z
  /\ zoomFactor (VoxelSize_restoreState obj w) = Num z.
Proof.
  intros Hz. unfold VoxelSize_restoreState.
  destruct (parseFiniteVec3 obj) as [size|];
    destruct_world w; cbn in *; try discriminate; auto.
Qed.

(** At construction the derived zoom replaces whatever zoom factor was
    supplied, as soon as the voxel size of the pose is valid. *)
Lemma NavigationState_new_zoomFactor (p : Pose) (zoom : option number) :
  VoxelSize_valid (SpatialPosition_voxelSize (Pose_position p)) = true ->
  let size := VoxelSize_size (SpatialPosition_voxelSize (Pose_position p)) in
  zoomFactor (NavigationState_new (Some p) zoom)
  = Num (Math_min3 (vec3_0 size) (vec3_1 size) (vec3_2 size)).
Proof.
  destruct p as [[[s valid] sc scv vc] [q]]; cbn. intros ->.
  destruct zoom; reflexivity.
Qed.

(** C2: the constructor, unlike the listener of the voxel size, does not
    test the zoom factor before deriving it: built on a pose whose voxel
    size [[2,4,3]] is valid and with the zoom factor [10], the navigation
    state has the zoom factor [2]. *)
Theorem NavigationState_new_replaces_supplied_zoomFactor :
  let voxelSize := VoxelSize_new (Some (vec3_fromValues 2 4 3)) in
  let position := SpatialPosition_new (Some voxelSize) None in
  let w := NavigationState_new (Some (Pose_new (Some position) None)) (Some (Num 10)) in
  zoomFactor w = Num 2 /\ zoomFactor w <> Num 10.
Proof.
  cbn. unfold Math_min3, Rmin.
  repeat destruct Rle_dec; try lra.
  split; [f_equal; lra | intros H; injection H; lra].
Qed.

(** ** The pending voxel coordinate *)

(** What [SpatialPosition.handleVoxelSizeChanged] leaves behind, and what it
    dispatches. *)
Lemma SpatialPosition_handleVoxelSizeChanged_effect (w : World) :
  let w' := SpatialPosition_handleVoxelSizeChanged w in
  SpatialPosition_voxelCoordinates (position w') = None
  /\ voxelSize w' = voxelSize w
  /\ dispatched w'
     = NavigationState_changed :: Pose_changed :: SpatialPosition_changed
       :: dispatched w.
Proof. destruct_world w; cbn; auto. Qed.

(** C3: a voxel coordinate set while the voxel size is not valid is kept as
    the pending voxel coordinate.  When the voxel size then becomes valid
    (by [restoreState] on three finite numbers, or by [setValid]) the
    pending coordinate is cleared and the observers of the position are
    notified; if the spatial coordinates were not valid they become the
    pending coordinate multiplied by the voxel size, and valid; if they were
    valid they are kept. *)
Theorem SpatialPosition_pending_voxelCoordinates_resolved
    (voxelCoordinates : Vec3) (obj : JSValue) (size : Vec3) (w : World) :
  VoxelSize_valid (voxelSize w) = false ->
  parseFiniteVec3 obj = Some size ->
  let w1 := SpatialPosition_setVoxelCoordinates voxelCoordinates w in
  let resolved (w2 : World) (size : Vec3) : Prop :=
    VoxelSize_valid (voxelSize w2) = true
    /\ SpatialPosition_voxelCoordinates (position w2) = None
    /\ (SpatialPosition_spatialCoordinatesValid (position w) = false ->
        SpatialPosition_spatialCoordinates (position w2)
        = vec3_multiply voxelCoordinates size)
    /\ (SpatialPosition_spatialCoordinatesValid (position w) = true ->
        SpatialPosition_spatialCoordinates (position w2)
        = SpatialPosition_spatialCoordinates (position w))
    /\ SpatialPosition_spatialCoordinatesValid (position w2) = true
    /\ exists before after,
        dispatched w2
        = after ++ SpatialPosition_changed :: before ++ dispatched w1 in
  SpatialPosition_voxelCoordinates (position w1) = Some voxelCoordinates
  /\ VoxelSize_valid (voxelSize w1) = false
  /\ resolved (VoxelSize_restoreState obj w1) size
  /\ resolved (VoxelSize_setValid w1) (VoxelSize_size (voxelSize w)).
Proof.
  intros Hinvalid Hparse w1 resolved. subst w1 resolved.
  unfold VoxelSize_restoreState. rewrite Hparse.
  destruct_world w; cbn in *; try discriminate;
    repeat split; try reflexivity; try discriminate;
    try (exists [VoxelSize_changed], [NavigationState_changed; Pose_changed];
         reflexivity);
    try (exists [VoxelSize_changed],
           [NavigationState_changed; NavigationState_changed; Pose_changed];
         reflexivity).
Qed.

(** The example of the specification: [setVoxelCoordinates([1,2,3])] on a
    position without a voxel size, then [VoxelSize.restoreState([1,1,1])]. *)
Lemma SpatialPosition_pending_voxelCoordinates_example :
  SpatialPosition_spatialCoordinates
    (position
       (VoxelSize_restoreState (json_of_reals [1; 1; 1])
          (SpatialPosition_setVoxelCoordinates (vec3_fromValues 1 2 3)
             fresh_world)))
  = vec3_fromValues 1 2 3.
Proof.
  destruct (SpatialPosition_pending_voxelCoordinates_resolved
              (vec3_fromValues 1 2 3) (json_of_reals [1; 1; 1])
              (vec3_fromValues 1 1 1) fresh_world eq_refl eq_refl)
    as (_ & _ & (_ & _ & Hspatial & _) & _).
  rewrite (Hspatial eq_refl). unfold vec3_multiply. cbn. f_equal; lra.
Defined.

(** ** SpatialPosition.restoreState *)

Lemma VoxelSize_restoreState_position (obj : JSValue) (w : World) :
  SpatialPosition_spatialCoordinatesValid
    (position (VoxelSize_restoreState obj w)) = true
  \/ SpatialPosition_spatialCoordinatesValid
       (position (VoxelSize_restoreState obj w))
     = SpatialPosition_spatialCoordinatesValid (position w).
Proof.
  unfold VoxelSize_restoreState.
  destruct (parseFiniteVec3 obj); destruct_world w; cbn; auto.
Qed.




(** ** Translations of the pose *)

Lemma vec3_transformQuat_identity (a : Vec3) :
  vec3_transformQuat a quat_identity = a.
Proof.
  destruct a as [x y z]. unfold vec3_transformQuat, quat_identity; cbn.
  f_equal; ring.
Qed.

(** C5, as the code has it: on a valid pose whose orientation is the
    identity quaternion, [translateRelative] and [translateAbsolute] with
    the same vector do the same: the same spatial coordinates, and the same
    world altogether. *)
Theorem Pose_translateRelative_identity_valid (delta : Vec3) (w : World) :
  Pose_valid (pose w) = true ->
  OrientationState_orientation (orientation w) = quat_identity ->
  SpatialPosition_spatialCoordinates (position (Pose_translateRelative delta w))
  = SpatialPosition_spatialCoordinates (position (Pose_translateAbsolute delta w))
  /\ Pose_translateRelative delta w = Pose_translateAbsolute delta w.
Proof.
  intros Hvalid Hidentity.
  assert (Hsame : Pose_translateRelative delta w = Pose_translateAbsolute delta w).
  { unfold Pose_translateRelative, Pose_translateAbsolute.
    rewrite Hvalid, Hidentity, vec3_transformQuat_identity. reflexivity. }
  rewrite Hsame. split; reflexivity.
Qed.

Lemma Pose_translateRelative_identity_valid_example :
  let w :=
    NavigationState_new
      (Some (Pose_new
               (Some (SpatialPosition_new
                        (Some (VoxelSize_new (Some (vec3_fromValues 1 1 1))))
                        (Some (vec3_fromValues 5 6 7))))
               None))
      None in
  SpatialPosition_spatialCoordinates
    (position (Pose_translateRelative (vec3_fromValues 1 0 0) w))
  = SpatialPosition_spatialCoordinates
      (position (Pose_translateAbsolute (vec3_fromValues 1 0 0) w)).
Proof.
  intros w.
  exact (proj1 (Pose_translateRelative_identity_valid
                  (vec3_fromValues 1 0 0) w eq_refl eq_refl)).
Defined.

(** C5 as stated fails: on a pose that is not valid (here a fresh one, whose
    orientation is the identity) [translateRelative] does nothing, and
    [translateAbsolute] moves the spatial coordinates. *)
Lemma Pose_translateRelative_identity_invalid :
  ~ (forall (delta : Vec3) (w : World),
        OrientationState_orientation (orientation w) = quat_identity ->
        SpatialPosition_spatialCoordinates
          (position (Pose_translateRelative delta w))
        = SpatialPosition_spatialCoordinates
            (position (Pose_translateAbsolute delta w))).
Proof.
  intros H.
  specialize (H (vec3_fromValues 1 0 0) fresh_world eq_refl).
  cbn in H. unfold vec3_add in H; cbn in H.
  injection H. lra.
Qed.

(** C10: [translateAbsolute] adds the translation to the stored spatial
    coordinates and dispatches the position's signal (which the pose and
    the navigation state rebroadcast) whether or not the pose is valid, and
    changes nothing else: the validity flag, the pending voxel coordinate,
    the voxel size, the orientation and the zoom factor are as before, so
    the validity of the pose is as before.  [translateRelative] leaves the
    world of a pose that is not valid untouched. *)
Theorem Pose_translateAbsolute_frame (translation : Vec3) (w : World) :
  let w' := Pose_translateAbsolute translation w in
  SpatialPosition_spatialCoordinates (position w')
  = vec3_add (SpatialPosition_spatialCoordinates (position w)) translation
  /\ dispatched w'
     = NavigationState_changed :: Pose_changed :: SpatialPosition_changed
       :: dispatched w
  /\ SpatialPosition_spatialCoordinatesValid (position w')
     = SpatialPosition_spatialCoordinatesValid (position w)
  /\ SpatialPosition_voxelCoordinates (position w')
     = SpatialPosition_voxelCoordinates (position w)
  /\ voxelSize w' = voxelSize w
  /\ orientation w' = orientation w
  /\ zoomFactor w' = zoomFactor w
  /\ Pose_valid (pose w') = Pose_valid (pose w)
  /\ (Pose_valid (pose w) = false ->
      Pose_valid (pose w') = false
      /\ Pose_translateRelative translation w = w).
Proof.
  destruct_world w; cbn; repeat split; try discriminate; reflexivity.
Qed.

(** ** Serialisation of the orientation *)

(** C7: [OrientationState.toJSON] yields [undefined] exactly when the four
    components of the quaternion equal [0], [0], [0] and [1]; for every
    other quaternion it yields the array of the four components. *)
Theorem OrientationState_toJSON_absent_iff_identity (this : OrientationState) :
  let q := OrientationState_orientation this in
  (OrientationState_toJSON this = JSundefined
   <-> q = quat_fromValues 0 0 0 1)
  /\ (q <> quat_fromValues 0 0 0 1 ->
      OrientationState_toJSON this
      = JSarray [JSnumber (Num (quat_0 q)); JSnumber (Num (quat_1 q));
                 JSnumber (Num (quat_2 q)); JSnumber (Num (quat_3 q))]).
Proof.
  destruct this as [[x y z t]]. cbn.
  unfold OrientationState_toJSON, quaternionIsIdentity; cbn.
  destruct (Reqb x 0) eqn:Hx; [apply Reqb_eq in Hx; subst x |];
    [destruct (Reqb y 0) eqn:Hy; [apply Reqb_eq in Hy; subst y |];
     [destruct (Reqb z 0) eqn:Hz; [apply Reqb_eq in Hz; subst z |];
      [destruct (Reqb t 1) eqn:Ht; [apply Reqb_eq in Ht; subst t |] | ] | ] | ];
    cbn.
  - split; [split; reflexivity | intros H; contradiction H; reflexivity].
  - split; [split; [discriminate | intros H; injection H as ->] | reflexivity].
    rewrite (proj2 (Reqb_eq 1 1) eq_refl) in Ht. discriminate.
  - split; [split; [discriminate | intros H; injection H as -> _] | reflexivity].
    rewrite (proj2 (Reqb_eq 0 0) eq_refl) in Hz. discriminate.
  - split; [split; [discriminate | intros H; injection H as -> _ _] | reflexivity].
    rewrite (proj2 (Reqb_eq 0 0) eq_refl) in Hy. discriminate.
  - split; [split; [discriminate | intros H; injection H as -> _ _ _] | reflexivity].
    rewrite (proj2 (Reqb_eq 0 0) eq_refl) in Hx. discriminate.
Qed.

(** ** Conversion between voxel and spatial coordinates *)



(** ** Snapping the orientation *)

Lemma Math_abs_0 : Math_abs 0 = 0.
Proof. apply Rabs_R0. Qed.

Lemma Math_abs_1 : Math_abs 1 = 1.
Proof. apply Rabs_R1. Qed.

Lemma Math_abs_minus_1 : Math_abs (-1) = 1.
Proof. unfold Math_abs. rewrite Rabs_left by lra. lra. Qed.

Lemma Math_sign_0 : Math_sign 0 = 0.
Proof. unfold Math_sign. rewrite !Rgtb_false by lra. reflexivity. Qed.

Lemma Math_sign_1 : Math_sign 1 = 1.
Proof. unfold Math_sign. rewrite Rgtb_true by lra. reflexivity. Qed.

Lemma Math_sign_minus_1 : Math_sign (-1) = -1.
Proof.
  unfold Math_sign. rewrite Rgtb_false by lra. rewrite Rgtb_true by lra.
  reflexivity.
Qed.

Create Rewrite HintDb math_abs.
Create Rewrite HintDb math_sign.
#[local] Hint Rewrite Math_abs_0 Math_abs_1 Math_abs_minus_1 : math_abs.
#[local] Hint Rewrite Math_sign_0 Math_sign_1 Math_sign_minus_1 : math_sign.



(** Splits an axis-aligned matrix into its twenty-four cases: the entries
    are chosen one by one, and the choices that contradict orthonormality
    or the determinant are dropped. *)
Ltac axis_aligned_cases m H :=
  let E := fresh "E" in
  let Hortho := fresh "Hortho" in
  let Hdet := fresh "Hdet" in
  destruct m as [m0 m1 m2 m3 m4 m5 m6 m7 m8];
  destruct H as (E & Hortho & Hdet);
  unfold mat3_entries, mat3_orthonormal, dot3, mat3_determinant in *;
  cbn in *;
  repeat match type of E with
         | Forall _ (_ :: _) =>
             let E1 := fresh "E" in
             apply Forall_cons_iff in E; destruct E as [E1 E]
         end;
  clear E; unfold unit_entry in *;
  repeat match goal with
         | E1 : _ = _ \/ _ |- _ =>
             destruct E1 as [-> | [-> | ->]]; try (exfalso; lra)
         end.

Ltac eval_mat3 :=
  cbn [fold_left seq snap_row snap_column mat3_get mat3_set quat_set nth
       array_set fst snd Nat.mul Nat.add Nat.sub Nat.modulo Nat.divmod
       mat3_0 mat3_1 mat3_2 mat3_3 mat3_4 mat3_5 mat3_6 mat3_7 mat3_8
       quat_0 quat_1 quat_2 quat_3].

(** On an axis-aligned matrix the two loops of [snap] change nothing: in
    each row they find the one entry that is not zero, in a column not yet
    used, and write its sign, which is the entry itself. *)
Lemma snap_matrix_axis_aligned (m : Mat3) :
  axis_aligned m -> snap_matrix m = m.
Proof.
  intros H. axis_aligned_cases m H.
  all: unfold snap_matrix.
  all: repeat (eval_mat3; autorewrite with math_abs; try decide_Rgtb).
  all: autorewrite with math_sign.
  all: reflexivity.
Qed.

(** The loops on a matrix that is not axis-aligned: the second row cannot
    take the column the first row took, although its entry there is the
    larger one. *)
Example snap_matrix_greedy :
  snap_matrix (mat3_fromValues 0.6 0.8 0 (-0.6) 0.8 0 0 0 1)
  = mat3_fromValues 0 1 0 (-1) 0 0 0 0 1.
Proof.
  unfold snap_matrix.
  repeat (eval_mat3;
          repeat match goal with
                 | |- context [Math_abs ?x] =>
                     first
                       [ replace (Math_abs x) with x
                           by (unfold Math_abs; rewrite Rabs_right; lra)
                       | replace (Math_abs x) with (- x)
                           by (unfold Math_abs; rewrite Rabs_left; lra) ]
                 end;
          try decide_Rgtb).
  unfold Math_sign. repeat decide_Rgtb. reflexivity.
Qed.



(** Two quaternions whose products of components agree, one of them with a
    component that is not zero, are equal or opposite. *)
Section SameProducts.
Variables a b c d x y z w : R.
Hypothesis Haa : a * a = x * x.
Hypothesis Hab : a * b = x * y.
Hypothesis Hac : a * c = x * z.
Hypothesis Had : a * d = x * w.
Hypothesis Hx : x <> 0.

End SameProducts.





(** The quaternion itself may change: [snap] turns [[0,0,0,-1]], which
    represents the same rotation as the identity quaternion, into
    [[0,0,0,1]]. *)
Remark OrientationState_snap_opposite_identity :
  let o := OrientationState_new (Some (quat_fromValues 0 0 0 (-1))) in
  let w := NavigationState_new (Some (Pose_new None (Some o))) None in
  OrientationState_orientation (orientation (OrientationState_snap w))
  = quat_fromValues 0 0 0 1.
Proof.
  intros o w. subst o w. unfold OrientationState_snap; cbn.
  assert (Hmat : mat3_fromQuat (quat_fromValues 0 0 0 (-1))
                 = mat3_fromValues 1 0 0 0 1 0 0 0 1).
  { unfold mat3_fromQuat; cbn. f_equal; lra. }
  rewrite Hmat.
  assert (Haligned : axis_aligned (mat3_fromValues 1 0 0 0 1 0 0 0 1)).
  { unfold axis_aligned, mat3_entries, mat3_orthonormal, dot3,
      mat3_determinant; cbn.
    split; [| split; [repeat split |]]; try lra.
    repeat constructor; unfold unit_entry; lra. }
  rewrite (snap_matrix_axis_aligned _ Haligned).
  unfold quat_fromMat3; eval_mat3. decide_Rgtb.
  replace (sqrt (1 + 1 + 1 + 1)) with 2
    by (symmetry; apply sqrt_lem_1; lra).
  f_equal; lra.
Qed.

(** * Further properties of the code *)

(** ** A pending voxel coordinate and the validity of the voxel size *)

Lemma VoxelSize_restoreState_pending (obj : JSValue) (w : World) :
  pending_only_while_invalid (position w) ->
  pending_only_while_invalid (position (VoxelSize_restoreState obj w)).
Proof.
  unfold pending_only_while_invalid, VoxelSize_restoreState.
  destruct (parseFiniteVec3 obj); destruct_world w; cbn; intros H Hp;
    try reflexivity; try contradiction; apply H; discriminate.
Qed.

Lemma SpatialPosition_restoreState_pending (obj : JSValue) (w : World) :
  pending_only_while_invalid (position w) ->
  pending_only_while_invalid
    (position (world_after w (SpatialPosition_restoreState obj w))).
Proof.
  intros H. unfold SpatialPosition_restoreState.
  destruct (get_property obj "voxelSize") as [voxelSizeJson | e]; [| exact H].
  apply (VoxelSize_restoreState_pending voxelSizeJson) in H.
  revert H. generalize (VoxelSize_restoreState voxelSizeJson w). intros w1 H.
  unfold pending_only_while_invalid in *.
  destruct (hasOwnProperty obj "voxelCoordinates");
    destruct (get_property obj "voxelCoordinates") as [json | e];
    destruct (get_property obj "spatialCoordinates") as [json' | e'];
    repeat match goal with
           | |- context [parseFiniteVec3 ?j] => destruct (parseFiniteVec3 j)
           end;
    destruct_world w1; cbn in *; intros Hp;
    try reflexivity; try contradiction; try (apply H; discriminate).
Qed.

Lemma OrientationState_restoreState_position (obj : JSValue) (w : World) :
  position (OrientationState_restoreState obj w) = position w.
Proof. destruct_world w; reflexivity. Qed.

Lemma Pose_restoreState_pending (obj : JSValue) (w : World) :
  pending_only_while_invalid (position w) ->
  pending_only_while_invalid (position (world_after w (Pose_restoreState obj w))).
Proof.
  intros H0. pose proof H0 as H. unfold Pose_restoreState.
  destruct (get_property obj "position") as [positionJson | e]; [| exact H0].
  apply (SpatialPosition_restoreState_pending positionJson) in H.
  destruct (SpatialPosition_restoreState positionJson w) as [w1 | e]; [| exact H0].
  destruct (get_property obj "orientation") as [orientationJson | e];
    [| exact H0].
  cbn [world_after] in *. rewrite OrientationState_restoreState_position.
  exact H.
Qed.

Lemma NavigationState_restoreState_pending
    (parseFloat : JSValue -> number) (obj : JSValue) (w : World) :
  pending_only_while_invalid (position w) ->
  pending_only_while_invalid
    (position (world_after w (NavigationState_restoreState parseFloat obj w))).
Proof.
  intros H0. pose proof H0 as H. unfold NavigationState_restoreState.
  destruct (negb (ToBoolean obj) || negb (typeof obj =? "object")%string);
    [exact H0 |].
  destruct (get_property obj "pose") as [poseJson | e]; [| exact H0].
  apply (Pose_restoreState_pending poseJson) in H.
  destruct (Pose_restoreState poseJson w) as [w1 | e]; [| exact H0].
  destruct (get_property obj "zoomFactor") as [zoomFactorJson | e]; [| exact H0].
  cbn [world_after] in *.
  destruct (parseFloat zoomFactorJson); destruct_world w1; exact H.
Qed.

Lemma run_keeps_pending_only_while_invalid
    (parseFloat : JSValue -> number) (op : Operation) (w : World) :
  pending_only_while_invalid (position w) ->
  pending_only_while_invalid (position (run parseFloat op w)).
Proof.
  destruct op; cbn [run];
    auto using VoxelSize_restoreState_pending,
      SpatialPosition_restoreState_pending, Pose_restoreState_pending,
      NavigationState_restoreState_pending.
  all: unfold pending_only_while_invalid.
  all: try (destruct obj as [ | | | [|z] | | | ]).
  all: destruct_world w; cbn; intros H Hp;
    try reflexivity; try contradiction; apply H; discriminate.
Qed.

(** X1: in every world that the constructors and any sequence of calls
    lead to, a voxel coordinate is pending only while the voxel size is not
    valid; so a valid position never has one. *)
Theorem reachable_pending_only_while_invalid
    (parseFloat : JSValue -> number) (w : World) :
  reachable parseFloat w ->
  pending_only_while_invalid (position w)
  /\ (SpatialPosition_valid (position w) = true ->
      SpatialPosition_voxelCoordinates (position w) = None).
Proof.
  intros Hreach.
  assert (H : pending_only_while_invalid (position w)).
  { induction Hreach as [voxelSize spatialCoordinates orientation zoomFactor
                        | op w Hreach IH].
    - unfold pending_only_while_invalid.
      destruct voxelSize, spatialCoordinates; cbn; intros Hp; contradiction.
    - apply run_keeps_pending_only_while_invalid, IH. }
  split; [exact H |].
  unfold pending_only_while_invalid, SpatialPosition_valid in *.
  destruct (SpatialPosition_voxelCoordinates (position w)); [| reflexivity].
  rewrite H by discriminate. rewrite andb_false_r. discriminate.
Qed.

Lemma reachable_pending_only_while_invalid_example :
  let w :=
    run parseFloat_of_number
      (call_VoxelSize_restoreState (json_of_reals [2; 4; 3]))
      (run parseFloat_of_number
         (call_SpatialPosition_setVoxelCoordinates (vec3_fromValues 1 2 3))
         (NavigationState_new
            (Some (Pose_new
                     (Some (SpatialPosition_new (Some (VoxelSize_new None)) None))
                     (Some (OrientationState_new None))))
            None)) in
  SpatialPosition_valid (position w) = true
  /\ SpatialPosition_voxelCoordinates (position w) = None.
Proof.
  intros w.
  assert (Hreach : reachable parseFloat_of_number w)
    by (subst w; repeat constructor).
  split; [reflexivity |].
  exact (proj2 (reachable_pending_only_while_invalid parseFloat_of_number w Hreach)
           eq_refl).
Defined.

(** ** Voxel coordinates written and read back *)


Lemma vec3_multiply_divide (v s : Vec3) :
  vec3_0 s <> 0 -> vec3_1 s <> 0 -> vec3_2 s <> 0 ->
  vec3_multiply (vec3_divide v s) s = v.
Proof.
  destruct v as [v0 v1 v2], s as [s0 s1 s2]; cbn. intros H0 H1 H2.
  unfold vec3_divide, vec3_multiply; cbn. f_equal; field; assumption.
Qed.





(** ** Changes of the voxel size *)

(** X4: restoring a voxel size from its own JSON reproduces it when it is
    valid; the JSON of a voxel size that is not valid is [undefined], and
    restoring that leaves the size as it was and the voxel size not
    valid. *)
Theorem VoxelSize_restoreState_toJSON (v : VoxelSize) (w : World) :
  voxelSize (VoxelSize_restoreState (VoxelSize_toJSON v) w)
  = if VoxelSize_valid v then v
    else {| VoxelSize_size := VoxelSize_size (voxelSize w);
            VoxelSize_valid := false |}.
Proof.
  destruct v as [[s0 s1 s2] [|]]; destruct_world w; reflexivity.
Qed.

(** X5: on a voxel size that is valid already, [VoxelSize.restoreState]
    dispatches nothing: a parsed vector replaces the size, and an input that
    does not parse makes the voxel size not valid, without any observer
    being told and without the zoom factor being derived again. *)
Theorem VoxelSize_restoreState_silent (obj : JSValue) (w : World) :
  VoxelSize_valid (voxelSize w) = true ->
  let w' := VoxelSize_restoreState obj w in
  dispatched w' = dispatched w
  /\ zoomFactor w' = zoomFactor w
  /\ voxelSize w'
     = match parseFiniteVec3 obj with
       | Some size => {| VoxelSize_size := size; VoxelSize_valid := true |}
       | None => {| VoxelSize_size := VoxelSize_size (voxelSize w);
                    VoxelSize_valid := false |}
       end.
Proof.
  intros Hvalid w'. subst w'. unfold VoxelSize_restoreState.
  destruct (parseFiniteVec3 obj); destruct_world w; cbn in *;
    try discriminate; auto.
Qed.

Lemma VoxelSize_restoreState_silent_example :
  let w :=
    NavigationState_new
      (Some (Pose_new
               (Some (SpatialPosition_new
                        (Some (VoxelSize_new (Some (vec3_fromValues 2 4 3))))
                        None))
               None))
      None in
  let w' := VoxelSize_restoreState (json_of_reals [1; 1; 1]) w in
  dispatched w' = dispatched w /\ zoomFactor w' = zoomFactor w.
Proof.
  intros w w'.
  destruct (VoxelSize_restoreState_silent (json_of_reals [1; 1; 1]) w eq_refl)
    as (Hlog & Hzoom & _).
  split; assumption.
Defined.

(** X6: [VoxelSize.reset] too runs the listener of the position, which does
    not look at the validity of the voxel size: a pending voxel coordinate
    is multiplied by the size that was just invalidated and becomes the
    spatial coordinates, marked valid, and restoring another voxel size
    afterwards does not convert it again. *)
Theorem VoxelSize_reset_consumes_pending
    (voxelCoordinates : Vec3) (obj : JSValue) (w : World) :
  SpatialPosition_voxelCoordinates (position w) = Some voxelCoordinates ->
  SpatialPosition_spatialCoordinatesValid (position w) = false ->
  let stale := vec3_multiply voxelCoordinates (VoxelSize_size (voxelSize w)) in
  let w' := VoxelSize_reset w in
  VoxelSize_valid (voxelSize w') = false
  /\ SpatialPosition_voxelCoordinates (position w') = None
  /\ SpatialPosition_spatialCoordinatesValid (position w') = true
  /\ SpatialPosition_spatialCoordinates (position w') = stale
  /\ SpatialPosition_spatialCoordinates
       (position (VoxelSize_restoreState obj w')) = stale.
Proof.
  intros Hpending Hspatial stale w'. subst stale w'.
  unfold VoxelSize_restoreState.
  destruct (parseFiniteVec3 obj); destruct_world w; cbn in *;
    try discriminate; injection Hpending as ->; auto 6.
Qed.

Lemma VoxelSize_reset_consumes_pending_example :
  let w := SpatialPosition_setVoxelCoordinates (vec3_fromValues 1 2 3) fresh_world in
  SpatialPosition_spatialCoordinates
    (position (VoxelSize_restoreState (json_of_reals [2; 4; 3]) (VoxelSize_reset w)))
  = vec3_fromValues 0 0 0.
Proof.
  intros w.
  destruct (VoxelSize_reset_consumes_pending
              (vec3_fromValues 1 2 3) (json_of_reals [2; 4; 3]) w
              eq_refl eq_refl) as (_ & _ & _ & _ & H).
  rewrite H. unfold vec3_multiply; cbn. f_equal; lra.
Defined.

(** ** Restoring and rotating the orientation *)

Lemma parseFiniteVec4_Some (obj : JSValue) (q : Quat) :
  parseFiniteVec4 obj = Some q
  <-> obj = json_of_reals [quat_0 q; quat_1 q; quat_2 q; quat_3 q].
Proof.
  split.
  - unfold parseFiniteVec4, parseFiniteVec.
    destruct obj as [ | | | | | elems | ]; try discriminate.
    destruct elems as [|e0 [|e1 [|e2 [|e3 [|e4 rest]]]]]; try discriminate.
    cbn.
    destruct e0 as [ | | |[|a]| | | ]; try discriminate.
    destruct e1 as [ | | |[|b]| | | ]; try discriminate.
    destruct e2 as [ | | |[|c]| | | ]; try discriminate.
    destruct e3 as [ | | |[|d]| | | ]; try discriminate.
    intros H; injection H as <-. reflexivity.
  - intros ->. destruct q; reflexivity.
Qed.


Lemma quat_normalize_of_unit (a : Quat) :
  quat_unit a -> quat_normalize a a = a.
Proof.
  destruct a as [x y z t]; unfold quat_unit, quat_normalize; cbn. intros Hunit.
  rewrite Hunit, Rgtb_true by lra. rewrite sqrt_1.
  f_equal; field.
Qed.


(** X8: an orientation of unit length survives the round trip through its
    JSON: the identity is written as [undefined] and restored as the
    identity, every other unit quaternion is written as its four components
    and restored unchanged. *)
Theorem OrientationState_restoreState_toJSON (this : OrientationState) (w : World) :
  quat_unit (OrientationState_orientation this) ->
  orientation (OrientationState_restoreState (OrientationState_toJSON this) w)
  = this.
Proof.
  destruct this as [[x y z t]]. cbn. intros Hunit.
  unfold OrientationState_restoreState, OrientationState_toJSON.
  cbn [OrientationState_orientation quat_0 quat_1 quat_2 quat_3].
  destruct (quaternionIsIdentity (quat_fromValues x y z t)) eqn:Hidentity.
  - unfold quaternionIsIdentity in Hidentity; cbn in Hidentity.
    apply andb_prop in Hidentity as [Hidentity Ht].
    apply andb_prop in Hidentity as [Hidentity Hz].
    apply andb_prop in Hidentity as [Hx Hy].
    apply Reqb_eq in Hx, Hy, Hz, Ht. subst.
    destruct_world w; reflexivity.
  - change (parseFiniteVec4 (json_of_reals [x; y; z; t]))
      with (Some (quat_fromValues x y z t)).
    cbv beta iota.
    rewrite quat_normalize_of_unit by exact Hunit.
    destruct_world w; reflexivity.
Qed.

Lemma OrientationState_restoreState_toJSON_example :
  let this := OrientationState_new (Some (quat_fromValues 0.5 0.5 0.5 0.5)) in
  orientation
    (OrientationState_restoreState (OrientationState_toJSON this) fresh_world)
  = this.
Proof.
  intros this.
  apply (OrientationState_restoreState_toJSON this fresh_world).
  unfold quat_unit; cbn. lra.
Defined.










(** ** Snapping the position to the voxel grid *)





(** ** Resetting and zooming *)

(** X12: [NavigationState.reset] keeps the voxel size and unsets everything
    else: no valid spatial coordinates, no pending voxel coordinate, the
    identity orientation and no zoom factor.  The zoom factor is not derived
    from the voxel size again, even if that is valid: [zoomBy] and
    [VoxelSize.setValid] then change nothing. *)
Theorem NavigationState_reset_keeps_voxelSize (factor : R) (w : World) :
  let w' := NavigationState_reset w in
  voxelSize w' = voxelSize w
  /\ SpatialPosition_spatialCoordinatesValid (position w') = false
  /\ SpatialPosition_voxelCoordinates (position w') = None
  /\ OrientationState_orientation (orientation w') = quat_fromValues 0 0 0 1
  /\ zoomFactor w' = NaN
  /\ NavigationState_zoomBy factor w' = w'
  /\ (VoxelSize_valid (voxelSize w) = true -> VoxelSize_setValid w' = w').
Proof.
  destruct_world w; cbn; repeat split; try discriminate.
Qed.


(** X14: [TrackableZoomState.restoreState] takes over the zoom factor that
    [TrackableZoomState.toJSON] wrote for a valid navigation state with a
    zoom factor, and notifies; for the JSON of any other navigation state
    ([undefined], or not a number) it leaves the world untouched, so it
    never unsets a zoom factor. *)
Theorem TrackableZoomState_restoreState_toJSON (source target : World) :
  let target' :=
    TrackableZoomState_restoreState (TrackableZoomState_toJSON source) target in
  match zoomFactor source with
  | Num z =>
      if NavigationState_valid (navigationState source) then
        zoomFactor target' = Num z
        /\ pose target' = pose target
        /\ dispatched target' = NavigationState_changed :: dispatched target
      else target' = target
  | NaN => target' = target
  end.
Proof.
  destruct_world source; destruct_world target; cbn; auto.
Qed.

(** ** Serialising and restoring the position, the pose and the whole state *)




Lemma SpatialPosition_toJSON_undefined (tempVec3 : Vec3) (this : SpatialPosition) :
  SpatialPosition_toJSON tempVec3 this = JSundefined
  <-> VoxelSize_valid (SpatialPosition_voxelSize this) = false
      /\ SpatialPosition_spatialCoordinatesValid this = false
      /\ SpatialPosition_voxelCoordinates this = None.
Proof.
  destruct this as [[[s0 s1 s2] [|]] c [|] [v|]]; cbn;
    split; try discriminate; try (intros (? & ? & ?); discriminate); auto.
Qed.

Lemma SpatialPosition_restoreState_throws (obj : JSValue) (w : World) :
  (nullish obj -> SpatialPosition_restoreState obj w = Throw TypeError)
  /\ (~ nullish obj -> exists w', SpatialPosition_restoreState obj w = Normal w').
Proof.
  unfold nullish. split.
  - intros [-> | ->]; reflexivity.
  - intros Hobj. unfold SpatialPosition_restoreState.
    destruct (get_property obj "voxelSize") as [voxelSizeJson | e] eqn:Hget.
    + destruct (get_property obj "spatialCoordinates") as [json | e];
        [destruct (parseFiniteVec3 json) |]; eauto.
    + destruct obj; try discriminate Hget; exfalso; apply Hobj; auto.
      cbn in Hget. destruct (own_property "voxelSize" props); discriminate.
Qed.

Lemma Pose_restoreState_throws (obj : JSValue) (w : World) :
  Pose_restoreState obj w = Throw TypeError
  <-> nullish obj \/ nullish (property obj "position").
Proof.
  destruct (SpatialPosition_restoreState_throws (property obj "position") w)
    as [Hthrow Hnormal].
  assert (Hdecide : forall v, nullish v \/ ~ nullish v).
  { unfold nullish. destruct v; auto; right; intros [H | H]; discriminate. }
  unfold Pose_restoreState, property in *.
  destruct (get_property obj "position") as [positionJson | e] eqn:Hget.
  - assert (Hobj : ~ nullish obj).
    { intros [-> | ->]; discriminate Hget. }
    destruct (Hdecide positionJson) as [Hnull | Hnull].
    + rewrite (Hthrow Hnull). split; auto.
    + destruct (Hnormal Hnull) as [w' ->].
      destruct (get_property obj "orientation") as [orientationJson | e'] eqn:Hget'.
      * split; [discriminate | intros [H | H]; contradiction].
      * exfalso. apply Hobj. unfold nullish.
        destruct obj; try discriminate Hget'; auto.
        cbn in Hget'. destruct (own_property "orientation" props); discriminate.
  - destruct obj; try discriminate Hget.
    + split; [intros _; left; left; reflexivity | intros _].
      cbn in Hget. congruence.
    + split; [intros _; left; right; reflexivity | intros _].
      cbn in Hget. congruence.
    + cbn in Hget. destruct (own_property "position" props); discriminate.
Qed.







(** ** Translations undone, and their length *)




(** ** What the JSON of a navigation state can restore *)

Lemma quaternionIsIdentity_true (q : Quat) :
  quaternionIsIdentity q = true <-> q = quat_fromValues 0 0 0 1.
Proof.
  destruct q as [x y z t]. unfold quaternionIsIdentity; cbn. split.
  - intros H.
    apply andb_prop in H as [H Ht].
    apply andb_prop in H as [H Hz].
    apply andb_prop in H as [Hx Hy].
    apply Reqb_eq in Hx, Hy, Hz, Ht. subst. reflexivity.
  - intros H. injection H as -> -> -> ->.
    rewrite !(proj2 (Reqb_eq _ _) eq_refl). reflexivity.
Qed.

Lemma OrientationState_toJSON_undefined (this : OrientationState) :
  OrientationState_toJSON this = JSundefined
  <-> OrientationState_orientation this = quat_fromValues 0 0 0 1.
Proof.
  unfold OrientationState_toJSON.
  pose proof (quaternionIsIdentity_true (OrientationState_orientation this)) as Hq.
  destruct (quaternionIsIdentity (OrientationState_orientation this)).
  - split; [intros _; apply Hq; reflexivity | reflexivity].
  - split; [discriminate | intros H; apply Hq in H; discriminate].
Qed.

Lemma Pose_toJSON_undefined (tempVec3 : Vec3) (this : Pose) :
  Pose_toJSON tempVec3 this = JSundefined
  <-> SpatialPosition_toJSON tempVec3 (Pose_position this) = JSundefined
      /\ OrientationState_toJSON (Pose_orientation this) = JSundefined.
Proof.
  unfold Pose_toJSON.
  destruct (SpatialPosition_toJSON tempVec3 (Pose_position this)),
    (OrientationState_toJSON (Pose_orientation this));
    split; try discriminate; try (intros [H1 H2]; discriminate); auto.
Qed.

(** X20: the JSON of a navigation state is [undefined] exactly when nothing
    is set in it: no valid voxel size, no valid spatial coordinates, no
    pending voxel coordinate, the identity orientation and no zoom factor.
    [NavigationState.restoreState] on that JSON returns without touching
    the world, so it does not clear a world in which something is set. *)
Theorem NavigationState_toJSON_undefined
    (parseFloat : JSValue -> number) (tempVec3 : Vec3)
    (this : NavigationState) (w : World) :
  let p := Pose_position (NavigationState_pose this) in
  (NavigationState_toJSON tempVec3 this = JSundefined
   <-> VoxelSize_valid (SpatialPosition_voxelSize p) = false
       /\ SpatialPosition_spatialCoordinatesValid p = false
       /\ SpatialPosition_voxelCoordinates p = None
       /\ OrientationState_orientation
            (Pose_orientation (NavigationState_pose this))
          = quat_fromValues 0 0 0 1
       /\ NavigationState_zoomFactor this = NaN)
  /\ NavigationState_restoreState parseFloat JSundefined w = Normal w.
Proof.
  intros p. subst p. split; [| reflexivity].
  pose proof (OrientationState_toJSON_undefined
                (Pose_orientation (NavigationState_pose this))) as Horientation.
  pose proof (SpatialPosition_toJSON_undefined tempVec3
                (Pose_position (NavigationState_pose this))) as Hposition.
  pose proof (Pose_toJSON_undefined tempVec3 (NavigationState_pose this)) as Hpose.
  unfold NavigationState_toJSON.
  destruct (Pose_toJSON tempVec3 (NavigationState_pose this));
    destruct (NavigationState_zoomFactor this);
    (split; [try discriminate | intros (H1 & H2 & H3 & H4 & H5)]);
    try discriminate;
    try (assert (Hundefined : @eq JSValue JSundefined JSundefined)
           by reflexivity;
         tauto);
    try (exfalso;
         assert (Hundefined :
           SpatialPosition_toJSON tempVec3
             (Pose_position (NavigationState_pose this)) = JSundefined
           /\ OrientationState_toJSON
                (Pose_orientation (NavigationState_pose this)) = JSundefined)
           by tauto;
         apply Hpose in Hundefined; discriminate Hundefined).
Qed.

(** X21: a navigation state in whose position nothing is set, but whose
    orientation is not the identity or whose zoom factor is set, writes
    JSON that [NavigationState.restoreState] answers with a [TypeError]. *)
Theorem NavigationState_restoreState_own_JSON_throws
    (parseFloat : JSValue -> number) (tempVec3 : Vec3)
    (this : NavigationState) (w : World) :
  SpatialPosition_toJSON tempVec3 (Pose_position (NavigationState_pose this))
  = JSundefined ->
  NavigationState_toJSON tempVec3 this <> JSundefined ->
  NavigationState_restoreState parseFloat (NavigationState_toJSON tempVec3 this) w
  = Throw TypeError.
Proof.
  intros Hposition Hdefined.
  unfold NavigationState_toJSON in *.
  assert (Hthrow :
    Pose_restoreState (Pose_toJSON tempVec3 (NavigationState_pose this)) w
    = Throw TypeError).
  { apply Pose_restoreState_throws. unfold Pose_toJSON. rewrite Hposition.
    destruct (OrientationState_toJSON (Pose_orientation (NavigationState_pose this)));
      unfold nullish; cbn; auto. }
  destruct (Pose_toJSON tempVec3 (NavigationState_pose this)) eqn:Hpose;
    destruct (NavigationState_zoomFactor this);
    try (contradiction Hdefined; reflexivity);
    unfold NavigationState_restoreState; cbn -[Pose_restoreState];
    rewrite Hthrow; reflexivity.
Qed.

Lemma NavigationState_restoreState_own_JSON_throws_example :
  let this := navigationState (NavigationState_zoomBy 2 (TrackableZoomState_restoreState (JSnumber (Num 3)) fresh_world)) in
  NavigationState_restoreState parseFloat_of_number
    (NavigationState_toJSON vec3_create this) fresh_world
  = Throw TypeError.
Proof.
  intros this.
  apply (NavigationState_restoreState_own_JSON_throws parseFloat_of_number
           vec3_create this fresh_world).
  - reflexivity.
  - subst this. unfold NavigationState_toJSON. cbn -[Pose_toJSON].
    match goal with
    | |- context [Pose_toJSON ?t ?p] => destruct (Pose_toJSON t p)
    end; discriminate.
Defined.

(** ** Which calls notify *)








